(** * The typescript-browser-with-output example server (main.py)

    A shallow embedding of
    [packages/services/examples/typescript-browser-with-output/main.py]:
    the module-level constants [HERE] and [LOADER], the page handler
    [ExampleHander], the application class [ExampleApp] and the import
    fallback between the two host packages.

    The module is glue over a host framework (tornado with notebook or
    jupyter_server) and the jinja2 template engine.  The host parts the
    module calls are gathered in the record [HostBindings]; what is opaque
    in them (the template renderer, the file resolution of the static
    handler, the base application) stays a field of that record. *)

From Stdlib Require Import String Ascii List Bool Arith Lia.
From stdpp Require Import base option gmap strings.

Import ListNotations.
Local Open Scope string_scope.

(** ** Python values, exceptions and results *)

Module Py.

(** The Python objects the module handles: text, an opaque object (the
    jinja2 environment kept in the settings), a bound method such as
    [static_url]. *)
Inductive value : Type :=
| VStr (s : string)
| VObj (id : nat)
| VFun (f : string -> string).

Inductive exn : Type :=
| KeyError (key : string)
| ImportError (module_name : string)
| TemplateNotFound (name : string)
| HTTPError (status_code : nat)
| TypeError (message : string)
| RuntimeError (message : string).

(** A computation either raises or returns. *)
Definition result (A : Type) : Type := exn + A.

(** [d[k]]: subscription of a dict raises [KeyError] on a missing key. *)
Definition getitem (d : gmap string value) (k : string) : result value :=
  match d !! k with
  | Some v => inr v
  | None => inl (KeyError k)
  end.

(** Keyword arguments, in call order. *)
Definition kwargs : Type := list (string * value).

Fixpoint kw_lookup (k : string) (ns : kwargs) : option value :=
  match ns with
  | [] => None
  | (k', v) :: ns' => if String.eqb k k' then Some v else kw_lookup k ns'
  end.

End Py.

(** ** The state-and-exception monad of method bodies *)

Module Eff.

(** A method body runs against a store [S]; it returns or raises, and the
    store survives an exception, as Python objects do. *)
Definition M (S A : Type) : Type := S -> Py.result A * S.

Definition ret {S A} (a : A) : M S A := fun s => (inr a, s).

Definition raise {S A} (e : Py.exn) : M S A := fun s => (inl e, s).

Definition bind {S A B} (m : M S A) (f : A -> M S B) : M S B :=
  fun s =>
    match m s with
    | (inr a, s') => f a s'
    | (inl e, s') => (inl e, s')
    end.

Definition gets {S A} (f : S -> A) : M S A := fun s => (inr (f s), s).

Definition modify {S} (f : S -> S) : M S unit := fun s => (inr tt, f s).

Definition lift {S A} (r : Py.result A) : M S A := fun s => (r, s).

End Eff.

Notation "'do' x <- m ; k" := (Eff.bind m (fun x => k))
  (at level 10, x name, m at level 100, k at level 200,
   format "'[v' 'do'  x  <-  m ; '/' k ']'").

(** ** os.path (posixpath) *)

Module os_path.

Definition is_sep (c : ascii) : bool := Ascii.eqb c "/"%char.

(** [p[:p.rfind('/') + 1]]: everything up to and including the last
    separator. *)
Fixpoint head_of (p : string) : string :=
  match p with
  | EmptyString => EmptyString
  | String c p' =>
      let h := head_of p' in
      if is_sep c then String c h
      else match h with
           | EmptyString => EmptyString
           | _ => String c h
           end
  end.

Fixpoint all_sep (p : string) : bool :=
  match p with
  | EmptyString => true
  | String c p' => is_sep c && all_sep p'
  end.

(** [head.rstrip('/')] *)
Fixpoint rstrip_sep (p : string) : string :=
  match p with
  | EmptyString => EmptyString
  | String c p' =>
      match rstrip_sep p' with
      | EmptyString => if is_sep c then EmptyString else String c EmptyString
      | r => String c r
      end
  end.

(** [posixpath.dirname]:
    [head = p[:i]; if head and head != sep*len(head): head = head.rstrip(sep)] *)
Definition dirname (p : string) : string :=
  let head := head_of p in
  match head with
  | EmptyString => head
  | _ => if all_sep head then head else rstrip_sep head
  end.

Definition startswith_sep (p : string) : bool :=
  match p with
  | String c _ => is_sep c
  | EmptyString => false
  end.

Fixpoint endswith_sep (p : string) : bool :=
  match p with
  | EmptyString => false
  | String c EmptyString => is_sep c
  | String _ p' => endswith_sep p'
  end.

(** [posixpath.join(a, b)] with one component [b]. *)
Definition join (a b : string) : string :=
  if startswith_sep b then b
  else match a with
       | EmptyString => b
       | _ => if endswith_sep a then a ++ b else a ++ "/" ++ b
       end.

End os_path.

(** ** Regular expressions (Python's [re], the part the route patterns use)

    The route patterns are regular expressions.  The fragment covered is the
    one they are written in: literal characters, [.], the greedy postfix
    operators [?] and [*] on a single character, one level of capturing
    groups and [$].  A pattern outside the fragment does not compile. *)

Module re.

Definition newline : ascii := "010"%char.

Inductive cls : Type :=
| Lit (c : ascii)
| Dot.

(** [.] matches any character but a newline. *)
Definition cls_ok (k : cls) (c : ascii) : bool :=
  match k with
  | Lit x => Ascii.eqb x c
  | Dot => negb (Ascii.eqb c newline)
  end.

Inductive atom : Type :=
| One (k : cls)
| Opt (k : cls)
| Star (k : cls)
| End.

Inductive item : Type :=
| Plain (a : atom)
| Group (body : list atom).

Definition regex : Type := list item.

Definition is_meta (c : ascii) : bool :=
  existsb (Ascii.eqb c)
    ["^"; "+"; "{"; "}"; "["; "]"; "\"; "|"]%char.

(** A postfix operator applies to the single character before it. *)
Definition postfix (op : cls -> atom) (l : list atom) : option (list atom) :=
  match l with
  | One k :: l' => Some (op k :: l')
  | _ => None
  end.

Definition plain_atoms (l : list item) : option (list atom * list item) :=
  match l with
  | Plain a :: l' => Some ([a], l')
  | _ => None
  end.

(** [seen] holds the items read so far and [grp] the atoms of the group
    being read, both latest first. *)
Fixpoint parse (p : string) (seen : list item) (grp : option (list atom))
  : option regex :=
  match p with
  | EmptyString =>
      match grp with
      | None => Some (rev seen)
      | Some _ => None
      end
  | String c p' =>
      let push (a : atom) :=
        match grp with
        | Some g => parse p' seen (Some (a :: g))
        | None => parse p' (Plain a :: seen) None
        end in
      let quantify (op : cls -> atom) :=
        match grp with
        | Some g =>
            match postfix op g with
            | Some g' => parse p' seen (Some g')
            | None => None
            end
        | None =>
            match plain_atoms seen with
            | Some (l, seen') =>
                match postfix op l with
                | Some [a] => parse p' (Plain a :: seen') None
                | _ => None
                end
            | None => None
            end
        end in
      if Ascii.eqb c "("%char then
        match grp with
        | None => parse p' seen (Some [])
        | Some _ => None
        end
      else if Ascii.eqb c ")"%char then
        match grp with
        | Some g => parse p' (Group (rev g) :: seen) None
        | None => None
        end
      else if Ascii.eqb c "?"%char then quantify Opt
      else if Ascii.eqb c "*"%char then quantify Star
      else if Ascii.eqb c "$"%char then push End
      else if Ascii.eqb c "."%char then push (One Dot)
      else if is_meta c then None
      else push (One (Lit c))
  end.

(** [re.compile] *)
Definition compile (pattern : string) : option regex := parse pattern [] None.

Section Matching.
Context {A : Type}.

(** Greedy repetition: the longest run first, then shorter ones. *)
Fixpoint star (k : cls) (s : string) (cont : string -> option A) : option A :=
  match s with
  | String c s' =>
      if cls_ok k c then
        match star k s' cont with
        | Some r => Some r
        | None => cont s
        end
      else cont s
  | EmptyString => cont s
  end.

Definition match_atom (a : atom) (s : string) (cont : string -> option A)
  : option A :=
  match a with
  | One k =>
      match s with
      | String c s' => if cls_ok k c then cont s' else None
      | EmptyString => None
      end
  | Opt k =>
      match s with
      | String c s' =>
          if cls_ok k c then
            match cont s' with
            | Some r => Some r
            | None => cont s
            end
          else cont s
      | EmptyString => cont s
      end
  | Star k => star k s cont
  | End =>
      (* the end of the text, or just before a newline that ends it *)
      match s with
      | EmptyString => cont s
      | String c EmptyString => if Ascii.eqb c newline then cont s else None
      | _ => None
      end
  end.

Fixpoint match_atoms (l : list atom) (s : string) (cont : string -> option A)
  : option A :=
  match l with
  | [] => cont s
  | a :: l' => match_atom a s (fun s' => match_atoms l' s' cont)
  end.

End Matching.

(** The text a group consumed: what was left before it, minus what is left
    after it. *)
Definition taken (before after : string) : string :=
  substring 0 (String.length before - String.length after) before.

Fixpoint match_items (r : regex) (s : string) (groups : list string)
  : option (list string) :=
  match r with
  | [] => Some (rev groups)
  | Plain a :: r' => match_atom a s (fun s' => match_items r' s' groups)
  | Group body :: r' =>
      match_atoms body s (fun s' => match_items r' s' (taken s s' :: groups))
  end.

(** [regex.match(s)]: anchored at the start of [s]; the value of a match
    is [match.groups()]. *)
Definition match_ (r : regex) (s : string) : option (list string) :=
  match_items r s [].

End re.

(** ** The objects of a running server *)

(** jinja2's [FileSystemLoader(searchpath)]. *)
Record FileSystemLoader : Type := { searchpath : list string }.

(** A loaded template: where it was read from, its text, and the
    environment it was loaded for. *)
Record Template : Type := {
  tpl_name : string;
  tpl_filename : string;
  tpl_source : string;
  tpl_environment : Py.value
}.

(** The handler classes a route can name.  [ExampleHander] is the class of
    this module, [FileFindHandler] the imported static-file class; any other
    class belongs to the host. *)
Inductive HandlerClass : Type :=
| ExampleHander
| FileFindHandler
| HostHandler (name : string).

(** A route as passed to [add_handlers]: [(pattern, class)] or
    [(pattern, class, kwargs)]. *)
Record Rule : Type := {
  pattern : string;
  target : HandlerClass;
  init_kwargs : Py.kwargs
}.

Inductive HostMatcher : Type :=
| AnyMatches
| HostMatches (host_pattern : string).

(** tornado's [Application]: its settings dict and the rules of its default
    router, each a host matcher over a list of routes. *)
Record WebApp : Type := {
  settings : gmap string Py.value;
  rules : list (HostMatcher * list Rule)
}.

(** The module-level names of main.py. *)
Record Globals : Type := {
  g_HERE : string;
  g_LOADER : FileSystemLoader
}.

(** Everything that outlives a request: the web application, the module's
    globals and the files on disk. *)
Record World : Type := {
  web_app : WebApp;
  globals : Globals;
  files : gmap string string
}.

(** What the host derives for one request. *)
Record Request : Type := {
  host_name : string;
  path : string;
  base_url : string;
  static_url : string -> string
}.

(** A request handler instance: its request and what [write] has buffered. *)
Record Handler : Type := {
  request : Request;
  write_buffer : string
}.

(** A handler method runs against the world and its own instance. *)
Definition Ctx : Type := (World * Handler)%type.

Record Response : Type := {
  status : nat;
  body : string
}.

(** An application class: the trait [default_url] and the lifecycle methods. *)
Record AppClass : Type := {
  default_url : string;
  initialize : Eff.M World unit;
  start : Eff.M World unit;
  stop : Eff.M World unit
}.

(** What [JupyterHandler] (or [IPythonHandler]) brings that stays opaque:
    how a loaded template is rendered with a namespace, the page the host
    writes for an error status, and the [get] of the host's other handler
    classes. *)
Record JupyterHandlerClass : Type := {
  render : Template -> Py.kwargs -> Py.result string;
  write_error : nat -> string;
  foreign_get : string -> Py.kwargs -> list string -> Eff.M Ctx unit
}.

(** What [FileFindHandler] brings that stays opaque: which file, if any, a
    relative URL path denotes under a root directory. *)
Record FileFindHandlerClass : Type := {
  find_file : string -> string -> gmap string string -> option string
}.

(** The three names the import block binds. *)
Record HostBindings : Type := {
  ServerApp : AppClass;
  JupyterHandler : JupyterHandlerClass;
  FileFind : FileFindHandlerClass
}.

(** ** The import block

    [[
    try:
        from notebook.notebookapp import NotebookApp as ServerApp
        from notebook.base.handlers import IPythonHandler as JupyterHandler, FileFindHandler
    except ImportError:
        from jupyter_server.serverapp import ServerApp
        from jupyter_server.base.handlers import JupyterHandler, FileFindHandler
    ]]

    The interpreter the module is loaded in: the path of the module file,
    the working directory, and what each of the four imports evaluates to
    (the names it binds, or the exception it raises). *)

Record PyEnv : Type := {
  file__ : string;
  cwd : string;
  notebook_notebookapp : Py.result AppClass;
  notebook_base_handlers : Py.result (JupyterHandlerClass * FileFindHandlerClass);
  jupyter_server_serverapp : Py.result AppClass;
  jupyter_server_base_handlers : Py.result (JupyterHandlerClass * FileFindHandlerClass)
}.

(** Two import statements in a row: the second runs only if the first
    returned.  Next to the outcome stands the list of the modules whose
    import was attempted, in order. *)
Definition import_pair
    (app_module handlers_module : string)
    (app : Py.result AppClass)
    (handlers : Py.result (JupyterHandlerClass * FileFindHandlerClass))
  : list string * Py.result HostBindings :=
  match app with
  | inl e => ([app_module], inl e)
  | inr a =>
      match handlers with
      | inl e => ([app_module; handlers_module], inl e)
      | inr (j, f) =>
          ([app_module; handlers_module],
           inr {| ServerApp := a; JupyterHandler := j; FileFind := f |})
      end
  end.

Definition import_notebook (env : PyEnv) : list string * Py.result HostBindings :=
  import_pair "notebook.notebookapp" "notebook.base.handlers"
    (notebook_notebookapp env) (notebook_base_handlers env).

Definition import_jupyter_server (env : PyEnv) : list string * Py.result HostBindings :=
  import_pair "jupyter_server.serverapp" "jupyter_server.base.handlers"
    (jupyter_server_serverapp env) (jupyter_server_base_handlers env).

(** [try: ... except ImportError: ...]: only an [ImportError] is caught. *)
Definition import_host (env : PyEnv) : list string * Py.result HostBindings :=
  match import_notebook env with
  | (attempted, inr b) => (attempted, inr b)
  | (attempted, inl (Py.ImportError _)) =>
      match import_jupyter_server env with
      | (attempted', outcome) => ((attempted ++ attempted')%list, outcome)
      end
  | (attempted, inl e) => (attempted, inl e)
  end.

(** ** Module-level constants

    [[
    HERE = os.path.dirname(__file__)
    LOADER = FileSystemLoader(HERE)
    ]] *)

Definition HERE (env : PyEnv) : string := os_path.dirname (file__ env).

Definition LOADER (env : PyEnv) : FileSystemLoader := {| searchpath := [HERE env] |}.

Definition module_globals (env : PyEnv) : Globals :=
  {| g_HERE := HERE env; g_LOADER := LOADER env |}.

(** ** Host operations the module calls

    These follow the documented behaviour of jinja2 and tornado; they are
    not code of main.py. *)

(** jinja2: the first search path under which the template file exists
    gives the template; none raises [TemplateNotFound]. *)
Fixpoint get_source (fs : gmap string string) (paths : list string) (name : string)
  : Py.result (string * string) :=
  match paths with
  | [] => inl (Py.TemplateNotFound name)
  | p :: paths' =>
      let filename := os_path.join p name in
      match fs !! filename with
      | Some source => inr (filename, source)
      | None => get_source fs paths' name
      end
  end.

(** [loader.load(environment, name)] *)
Definition FileSystemLoader_load
    (loader : FileSystemLoader) (environment : Py.value) (name : string)
  : Eff.M Ctx Template :=
  do fs <- Eff.gets (fun c : Ctx => files (fst c));
  match get_source fs (searchpath loader) name with
  | inl e => Eff.raise e
  | inr (filename, source) =>
      Eff.ret {| tpl_name := name; tpl_filename := filename;
                 tpl_source := source; tpl_environment := environment |}
  end.

(** [self.settings] is the settings dict of the application. *)
Definition self_settings : Eff.M Ctx (gmap string Py.value) :=
  Eff.gets (fun c : Ctx => settings (web_app (fst c))).

Definition subscript (d : gmap string Py.value) (k : string) : Eff.M Ctx Py.value :=
  Eff.lift (Py.getitem d k).

(** [self.write(chunk)] appends to the handler's buffer. *)
Definition write (chunk : string) : Eff.M Ctx unit :=
  Eff.modify (fun c : Ctx =>
    (fst c, {| request := request (snd c);
               write_buffer := write_buffer (snd c) ++ chunk |})).

(** Python's [list.insert(-1, x)]: before the last element, or first in an
    empty list. *)
Fixpoint insert_before_last {A} (x : A) (l : list A) : list A :=
  match l with
  | [] => [x]
  | [y] => [x; y]
  | y :: l' => y :: insert_before_last x l'
  end.

Definition set_rules (w : World) (rs : list (HostMatcher * list Rule)) : World :=
  {| web_app := {| settings := settings (web_app w); rules := rs |};
     globals := globals w;
     files := files w |}.

(** [web_app.add_handlers(host_pattern, host_handlers)]: tornado inserts the
    new host rule before the last rule of the default router. *)
Definition add_handlers (host_pattern : string) (host_handlers : list Rule)
  : Eff.M World unit :=
  Eff.modify (fun w =>
    set_rules w (insert_before_last (HostMatches host_pattern, host_handlers)
                                    (rules (web_app w)))).

(** tornado compiles a route or host pattern with [$] appended unless it
    ends with one. *)
Fixpoint endswith_dollar (p : string) : bool :=
  match p with
  | EmptyString => false
  | String c EmptyString => Ascii.eqb c "$"%char
  | String _ p' => endswith_dollar p'
  end.

Definition anchored (p : string) : string :=
  if endswith_dollar p then p else p ++ "$".

(** [PathMatches(pattern).match(request)]: the captured groups when the
    pattern matches the request path. *)
Definition PathMatches (p : string) (request_path : string) : option (list string) :=
  match re.compile (anchored p) with
  | Some r => re.match_ r request_path
  | None => None
  end.

Definition host_matches (m : HostMatcher) (name : string) : bool :=
  match m with
  | AnyMatches => true
  | HostMatches p =>
      match re.compile (anchored p) with
      | Some r => match re.match_ r name with Some _ => true | None => false end
      | None => false
      end
  end.

(** Within a router the routes are tried in order; the first that matches
    takes the request. *)
Fixpoint find_rule (rs : list Rule) (request_path : string)
  : option (Rule * list string) :=
  match rs with
  | [] => None
  | r :: rs' =>
      match PathMatches (pattern r) request_path with
      | Some args => Some (r, args)
      | None => find_rule rs' request_path
      end
  end.

(** The default router tries its host rules in order and moves on when the
    routes under a matching host do not take the request. *)
Fixpoint find_handler (groups : list (HostMatcher * list Rule)) (req : Request)
  : option (Rule * list string) :=
  match groups with
  | [] => None
  | (m, rs) :: groups' =>
      if host_matches m (host_name req) then
        match find_rule rs (path req) with
        | Some hit => Some hit
        | None => find_handler groups' req
        end
      else find_handler groups' req
  end.

(** ** The module's classes *)

Section Example.

Context (host : HostBindings).

(** [JupyterHandler.render_template(name, **ns)]: the host obtains the
    template through the handler's own [get_template] and renders it with
    the namespace. *)
Definition render_template
    (get_template : string -> Eff.M Ctx Template)
    (name : string) (ns : Py.kwargs) : Eff.M Ctx string :=
  do template <- get_template name;
  Eff.lift (render (JupyterHandler host) template ns).

(** [[
    def get_template(self, name):
        return LOADER.load(self.settings['jinja2_env'], name)
    ]] *)
Definition ExampleHander_get_template (name : string) : Eff.M Ctx Template :=
  do loader <- Eff.gets (fun c : Ctx => g_LOADER (globals (fst c)));
  do d <- self_settings;
  do environment <- subscript d "jinja2_env";
  FileSystemLoader_load loader environment name.

(** The keyword arguments of the call in [get]. *)
Definition page_namespace (static : string -> string) (base : string)
    (token : Py.value) : Py.kwargs :=
  [("static", Py.VFun static); ("base_url", Py.VStr base); ("token", token)].

(** [[
    def get(self):
        return self.write(self.render_template("index.html",
            static=self.static_url, base_url=self.base_url,
            token=self.settings['token']))
    ]] *)
Definition ExampleHander_get : Eff.M Ctx unit :=
  do static <- Eff.gets (fun c : Ctx => static_url (request (snd c)));
  do base <- Eff.gets (fun c : Ctx => base_url (request (snd c)));
  do d <- self_settings;
  do token <- subscript d "token";
  do page <- render_template ExampleHander_get_template "index.html"
               (page_namespace static base token);
  write page.

(** Modelled from the spec: [FileFindHandler.get], the host's static file
    handler, which main.py only names in a route.  The remainder of the
    path is resolved against the directory given as [path]; the file's
    contents are the response, and no file is a 404. *)
Definition FileFindHandler_get (init : Py.kwargs) (args : list string)
  : Eff.M Ctx unit :=
  match Py.kw_lookup "path" init, args with
  | Some (Py.VStr root), [relative] =>
      do fs <- Eff.gets (fun c : Ctx => files (fst c));
      match find_file (FileFind host) root relative fs with
      | Some data => write data
      | None => Eff.raise (Py.HTTPError 404)
      end
  | _, _ => Eff.raise (Py.TypeError "FileFindHandler")
  end.

(** The host calls [get] with the captured groups as positional arguments
    on an instance of the route's class. *)
Definition handler_get (c : HandlerClass) (init : Py.kwargs) (args : list string)
  : Eff.M Ctx unit :=
  match c with
  | ExampleHander =>
      match args with
      | [] => ExampleHander_get
      | _ => Eff.raise (Py.TypeError "get() takes 1 positional argument")
      end
  | FileFindHandler => FileFindHandler_get init args
  | HostHandler name => foreign_get (JupyterHandler host) name init args
  end.

(** Modelled from the spec: the host's way of ending a request, which is
    not code of main.py.  What was written goes out with status 200; an
    [HTTPError] becomes its status and any other exception a 500, with the
    host's own error page as body. *)
Definition finish (outcome : Py.result unit) (h : Handler) : Response :=
  match outcome with
  | inr _ => {| status := 200; body := write_buffer h |}
  | inl (Py.HTTPError code) =>
      {| status := code; body := write_error (JupyterHandler host) code |}
  | inl _ => {| status := 500; body := write_error (JupyterHandler host) 500 |}
  end.

Definition new_handler (req : Request) : Handler :=
  {| request := req; write_buffer := "" |}.

(** The host creates an instance of the route's class for the request,
    calls its [get] and finishes the request. *)
Definition dispatch (hit : Rule * list string) (req : Request) (w : World)
  : Response * World :=
  let (r, args) := hit in
  match handler_get (target r) (init_kwargs r) args (w, new_handler req) with
  | (outcome, (w', h')) => (finish outcome h', w')
  end.

(** A GET request through one router.  A request none of its routes takes
    is left to the rest of the host. *)
Definition route (rs : list Rule) (req : Request) (w : World)
  : option Response * World :=
  match find_rule rs (path req) with
  | None => (None, w)
  | Some hit => let (resp, w') := dispatch hit req w in (Some resp, w')
  end.

(** A GET request through the application. *)
Definition serve (req : Request) (w : World) : option Response * World :=
  match find_handler (rules (web_app w)) req with
  | None => (None, w)
  | Some hit => let (resp, w') := dispatch hit req w in (Some resp, w')
  end.

(** The [handlers] list of [start]: the root pattern with [ExampleHander],
    then the wildcard pattern with [FileFindHandler] and the keyword
    arguments [{'path': os.path.join(HERE, 'build')}]. *)
Definition handlers (here : string) : list Rule :=
  [ {| pattern := "/example/?"; target := ExampleHander; init_kwargs := [] |};
    {| pattern := "/example/(.*)"; target := FileFindHandler;
       init_kwargs := [("path", Py.VStr (os_path.join here "build"))] |} ].

(** [[
    def start(self):
        handlers = [...]
        self.web_app.add_handlers(".*$", handlers)
        super(ExampleApp, self).start()
    ]] *)
Definition ExampleApp_start : Eff.M World unit :=
  do here <- Eff.gets (fun w : World => g_HERE (globals w));
  do _ <- add_handlers ".*$" (handlers here);
  start (ServerApp host).

(** [[
    class ExampleApp(ServerApp):
        default_url = Unicode('/example')
        def start(self): ...
    ]]
    Every other method is the base class's. *)
Definition ExampleApp : AppClass :=
  {| default_url := "/example";
     initialize := initialize (ServerApp host);
     start := ExampleApp_start;
     stop := stop (ServerApp host) |}.

(** [launch_instance], the host's entry point: the application is
    initialized and then started. *)
Definition launch_instance (app : AppClass) : Eff.M World unit :=
  do _ <- initialize app;
  start app.

(** [[
    if __name__ == '__main__':
        ExampleApp.launch_instance()
    ]] *)
Definition main : Eff.M World unit := launch_instance ExampleApp.

End Example.



(** ** Vocabulary of the statements *)

(** A request path or host name holds no line break. *)
Fixpoint no_newline (s : string) : bool :=
  match s with
  | EmptyString => true
  | String c s' => negb (Ascii.eqb c re.newline) && no_newline s'
  end.




Definition route_count (groups : list (HostMatcher * list Rule)) : nat :=
  list_sum (map (fun g => length (snd g)) groups).

(** The static file handler answers every request whose path starts with the
    prefix, the bare prefix included: the file's contents with status 200,
    or status 404 when the remainder names no file. *)
Definition static_answers_all_under_prefix (host : HostBindings) : Prop :=
  forall (here rest : string) (req : Request) (w : World),
    path req = "/example/" ++ rest ->
    no_newline rest = true ->
    fst (route host (handlers here) req w)
    = match find_file (FileFind host) (os_path.join here "build") rest (files w) with
      | Some data => Some {| status := 200; body := data |}
      | None => Some {| status := 404; body := write_error (JupyterHandler host) 404 |}
      end.


(** The import block reached the imports from jupyter_server. *)
Definition fell_back (env : PyEnv) : Prop :=
  In "jupyter_server.serverapp" (fst (import_host env)).

(** The world once [start] has made its [add_handlers] call. *)
Definition registered (w : World) : World :=
  snd (add_handlers ".*$" (handlers (g_HERE (globals w))) w).

(** What [write] leaves in a handler. *)
Definition written (h : Handler) (chunk : string) : Handler :=
  {| request := request h; write_buffer := write_buffer h ++ chunk |}.

(** The template [get_template] builds from the file it found. *)
Definition loaded (name : string) (found : string * string) (environment : Py.value)
  : Template :=
  {| tpl_name := name; tpl_filename := fst found;
     tpl_source := snd found; tpl_environment := environment |}.


(** The two routes of [handlers], by name. *)
Definition root_rule : Rule :=
  {| pattern := "/example/?"; target := ExampleHander; init_kwargs := [] |}.

Definition static_rule (here : string) : Rule :=
  {| pattern := "/example/(.*)"; target := FileFindHandler;
     init_kwargs := [("path", Py.VStr (os_path.join here "build"))] |}.

(** [s] holds a path separator. *)
Fixpoint has_sep (s : string) : bool :=
  match s with
  | EmptyString => false
  | String c s' => os_path.is_sep c || has_sep s'
  end.

(** The items of a run of literal characters. *)
Definition literal (cs : list ascii) : list re.item :=
  map re.Plain (map (fun c => re.One (re.Lit c)) cs).

(** ** A small host, for concrete runs

    A stand-in for the host bindings: a renderer that expands [{{name}}]
    from the namespace, a static handler that looks the joined path up on
    disk, and a base application whose lifecycle methods do nothing. *)

Module Demo.

Definition show (v : option Py.value) : string :=
  match v with
  | Some (Py.VStr s) => s
  | _ => ""
  end.

Fixpoint expand (s : string) (var : option string) (ns : Py.kwargs) : string :=
  match s with
  | EmptyString => EmptyString
  | String c s' =>
      match var with
      | None =>
          match c, s' with
          | "{"%char, String "{"%char s'' => expand s'' (Some "") ns
          | _, _ => String c (expand s' None ns)
          end
      | Some name =>
          match c, s' with
          | "}"%char, String "}"%char s'' =>
              show (Py.kw_lookup name ns) ++ expand s'' None ns
          | _, _ => expand s' (Some (name ++ String c "")) ns
          end
      end
  end.

Definition base_app : AppClass :=
  {| default_url := "/tree";
     initialize := Eff.ret tt;
     start := Eff.ret tt;
     stop := Eff.ret tt |}.

Definition jupyter_handler : JupyterHandlerClass :=
  {| render := fun t ns => inr (expand (tpl_source t) None ns);
     write_error := fun code => "error";
     foreign_get := fun _ _ _ => Eff.raise (Py.HTTPError 404) |}.

Definition file_find : FileFindHandlerClass :=
  {| find_file := fun root relative fs => fs !! os_path.join root relative |}.

Definition host : HostBindings :=
  {| ServerApp := base_app; JupyterHandler := jupyter_handler; FileFind := file_find |}.

Definition env : PyEnv :=
  {| file__ := "/srv/example/main.py";
     cwd := "/home/user";
     notebook_notebookapp := inr base_app;
     notebook_base_handlers := inr (jupyter_handler, file_find);
     jupyter_server_serverapp := inl (Py.ImportError "jupyter_server");
     jupyter_server_base_handlers := inl (Py.ImportError "jupyter_server") |}.

(** The same interpreter with only jupyter_server installed. *)
Definition env_server : PyEnv :=
  {| file__ := "/srv/example/main.py";
     cwd := "/tmp";
     notebook_notebookapp := inl (Py.ImportError "notebook");
     notebook_base_handlers := inl (Py.ImportError "notebook");
     jupyter_server_serverapp := inr base_app;
     jupyter_server_base_handlers := inr (jupyter_handler, file_find) |}.

Definition index_html : string :=
  "<script>{'baseUrl': '{{base_url}}', 'token': '{{token}}'}</script>".

Definition make_world (st : gmap string Py.value) (fs : gmap string string) : World :=
  {| web_app := {| settings := st; rules := [(AnyMatches, [])] |};
     globals := module_globals env;
     files := fs |}.

Definition disk : gmap string string :=
  <["/srv/example/index.html" := index_html]>
    (<["/srv/example/build/bundle.js" := "console.log(1)"]> ∅).

Definition world : World :=
  make_world (<["token" := Py.VStr "s3cr3t"]> (<["jinja2_env" := Py.VObj 0]> ∅)) disk.




Definition get_request (p : string) : Request :=
  {| host_name := "localhost";
     path := p;
     base_url := "/user/ann/";
     static_url := fun name => "/static/" ++ name |}.

End Demo.

(** The demo server started by the bare name of its script, from the
    directory that holds it. *)
Definition demo_env_bare : PyEnv :=
  {| file__ := "main.py";
     cwd := "/srv/example";
     notebook_notebookapp := notebook_notebookapp Demo.env;
     notebook_base_handlers := notebook_base_handlers Demo.env;
     jupyter_server_serverapp := jupyter_server_serverapp Demo.env;
     jupyter_server_base_handlers := jupyter_server_base_handlers Demo.env |}.

Definition demo_world_bare : World :=
  {| web_app := web_app Demo.world;
     globals := module_globals demo_env_bare;
     files := <["index.html" := Demo.index_html]> ∅ |}.

(** The demo server after a server extension added a route of its own under
    [/example/] before the application started. *)
Definition demo_world_extended : World :=
  set_rules Demo.world
    [ (HostMatches ".*$",
       [ {| pattern := "/example/api"; target := HostHandler "api"; init_kwargs := [] |} ]);
      (AnyMatches,
       [ {| pattern := "/tree"; target := HostHandler "tree"; init_kwargs := [] |} ]) ].

(** * Properties *)

(** ** Paths and patterns on examples *)

Example dirname_abs : os_path.dirname "/srv/example/main.py" = "/srv/example".
Proof. reflexivity. Qed.

Example dirname_bare : os_path.dirname "main.py" = "".
Proof. reflexivity. Qed.

Example dirname_root : os_path.dirname "/main.py" = "/".
Proof. reflexivity. Qed.

Example join_build : os_path.join "/srv/example" "build" = "/srv/example/build".
Proof. reflexivity. Qed.

Example compile_root :
  re.compile "/example/?$"
  = Some (map re.Plain
            [re.One (re.Lit "/"); re.One (re.Lit "e"); re.One (re.Lit "x");
             re.One (re.Lit "a"); re.One (re.Lit "m"); re.One (re.Lit "p");
             re.One (re.Lit "l"); re.One (re.Lit "e"); re.Opt (re.Lit "/");
             re.End])%char.
Proof. reflexivity. Qed.

Example compile_host : re.compile ".*$" = Some [re.Plain (re.Star re.Dot); re.Plain re.End].
Proof. reflexivity. Qed.

Example compile_nested : re.compile "((a))" = None.
Proof. reflexivity. Qed.

Example join_relative : os_path.join "" "build" = "build".
Proof. reflexivity. Qed.

Example wildcard_captures : PathMatches "/example/(.*)" "/example/js/main.js" = Some ["js/main.js"].
Proof. reflexivity. Qed.

Example wildcard_not_prefix : PathMatches "/example/(.*)" "/example" = None.
Proof. reflexivity. Qed.

Example root_not_longer : PathMatches "/example/?" "/examples" = None.
Proof. reflexivity. Qed.

Example demo_page :
  fst (route Demo.host (handlers (HERE Demo.env)) (Demo.get_request "/example") Demo.world)
  = Some {| status := 200;
            body := "<script>{'baseUrl': '/user/ann/', 'token': 's3cr3t'}</script>" |}.
Proof. reflexivity. Qed.

Example demo_started_serves_bundle :
  fst (serve Demo.host (Demo.get_request "/example/bundle.js")
         (snd (ExampleApp_start Demo.host Demo.world)))
  = Some {| status := 200; body := "console.log(1)" |}.
Proof. reflexivity. Qed.

(** ** Text *)

Lemma substring_all (s : string) : substring 0 (String.length s) s = s.
Proof. induction s as [|c s IH]; simpl; [reflexivity | now rewrite IH]. Qed.





(** ** Matching *)

Lemma star_dot_all {A} (s : string) (cont : string -> option A) (v : A) :
  no_newline s = true ->
  cont "" = Some v ->
  re.star re.Dot s cont = Some v.
Proof.
  intros Hs Hv. induction s as [|c s IH]; simpl in *; [exact Hv|].
  apply andb_prop in Hs as [Hc Hs].
  unfold re.cls_ok. rewrite Hc, (IH Hs). reflexivity.
Qed.

(** The root pattern takes the root path with and without its slash. *)
Lemma root_pattern_root :
  PathMatches "/example/?" "/example" = Some []
  /\ PathMatches "/example/?" "/example/" = Some [].
Proof. split; reflexivity. Qed.

(** The wildcard pattern takes every path under the prefix and captures
    what follows the prefix. *)
Lemma wildcard_pattern_under (rest : string) :
  no_newline rest = true ->
  PathMatches "/example/(.*)" ("/example/" ++ rest) = Some [rest].
Proof.
  intros Hrest. unfold PathMatches.
  change (re.compile (anchored "/example/(.*)"))
    with (Some (map re.Plain (map (fun c => re.One (re.Lit c))
                  ["/"; "e"; "x"; "a"; "m"; "p"; "l"; "e"; "/"]%char)
                ++ [re.Group [re.Star re.Dot]; re.Plain re.End])%list).
  cbv [String.append]. cbn - [re.star re.taken].
  apply star_dot_all; [exact Hrest|].
  cbn. unfold re.taken. rewrite Nat.sub_0_r, substring_all. reflexivity.
Qed.

(** The root pattern takes nothing that has a remainder after the prefix. *)
Lemma root_pattern_not_under (rest : string) :
  rest <> "" ->
  no_newline rest = true ->
  PathMatches "/example/?" ("/example/" ++ rest) = None.
Proof.
  intros Hne Hrest. unfold PathMatches.
  change (re.compile (anchored "/example/?"))
    with (Some (map re.Plain
                  (map (fun c => re.One (re.Lit c))
                     ["/"; "e"; "x"; "a"; "m"; "p"; "l"; "e"]%char
                   ++ [re.Opt (re.Lit "/"%char); re.End])%list)).
  destruct rest as [|c rest]; [congruence|].
  simpl in Hrest. apply andb_prop in Hrest as [Hc _].
  apply negb_true_iff in Hc.
  cbv [String.append]. cbn - [Ascii.eqb re.newline]. rewrite Hc.
  destruct rest; reflexivity.
Qed.

Lemma any_host_pattern (name : string) :
  no_newline name = true ->
  host_matches (HostMatches ".*$") name = true.
Proof.
  intros Hname. unfold host_matches.
  change (re.compile (anchored ".*$"))
    with (Some [re.Plain (re.Star re.Dot); re.Plain re.End]).
  unfold re.match_. cbn - [re.star].
  now rewrite (star_dot_all name _ [] Hname).
Qed.

(** ** Running the page handler *)

Section Running.

Context (host : HostBindings).

(** [get_template] step by step: the environment is looked up first, then
    the file; the store is never touched. *)
Lemma ExampleHander_get_template_run (name : string) (w : World) (h : Handler) :
  ExampleHander_get_template name (w, h)
  = match settings (web_app w) !! "jinja2_env" with
    | None => (inl (Py.KeyError "jinja2_env"), (w, h))
    | Some environment =>
        match get_source (files w) (searchpath (g_LOADER (globals w))) name with
        | inl e => (inl e, (w, h))
        | inr found => (inr (loaded name found environment), (w, h))
        end
    end.
Proof.
  unfold ExampleHander_get_template, self_settings, subscript,
    FileSystemLoader_load, Eff.bind, Eff.gets, Eff.lift, Py.getitem.
  cbn [fst snd].
  destruct (settings (web_app w) !! "jinja2_env") as [environment|]; [|reflexivity].
  destruct (get_source _ _ _) as [e|[filename source]]; reflexivity.
Qed.

(** [get] step by step: the token, the environment, the template file and
    the rendering can each raise, in this order; otherwise the page is
    appended to the handler's buffer. *)
Lemma ExampleHander_get_run (w : World) (h : Handler) :
  ExampleHander_get host (w, h)
  = match settings (web_app w) !! "token" with
    | None => (inl (Py.KeyError "token"), (w, h))
    | Some token =>
        match settings (web_app w) !! "jinja2_env" with
        | None => (inl (Py.KeyError "jinja2_env"), (w, h))
        | Some environment =>
            match get_source (files w) (searchpath (g_LOADER (globals w)))
                    "index.html" with
            | inl e => (inl e, (w, h))
            | inr found =>
                match render (JupyterHandler host)
                        (loaded "index.html" found environment)
                        (page_namespace (static_url (request h))
                           (base_url (request h)) token) with
                | inl e => (inl e, (w, h))
                | inr page => (inr tt, (w, written h page))
                end
            end
        end
    end.
Proof.
  unfold ExampleHander_get, render_template.
  unfold Eff.bind at 1 2 3 4. unfold Eff.gets at 1 2. cbn [fst snd].
  unfold self_settings at 1. unfold Eff.gets at 1. cbn [fst snd].
  unfold subscript at 1, Eff.lift at 1, Py.getitem at 1.
  destruct (settings (web_app w) !! "token") as [token|]; [|reflexivity].
  unfold Eff.bind at 1 2. rewrite ExampleHander_get_template_run.
  destruct (settings (web_app w) !! "jinja2_env") as [environment|]; [|reflexivity].
  destruct (get_source _ _ _) as [e|found]; [reflexivity|].
  unfold Eff.lift.
  destruct (render _ _ _) as [e|page]; reflexivity.
Qed.

End Running.

(** ** Routes of the example *)

Lemma root_route (here : string) (p : string) :
  p = "/example" \/ p = "/example/" ->
  find_rule (handlers here) p
  = Some ({| pattern := "/example/?"; target := ExampleHander; init_kwargs := [] |}, []).
Proof. intros [-> | ->]; reflexivity. Qed.

Lemma static_route (here rest : string) :
  rest <> "" ->
  no_newline rest = true ->
  find_rule (handlers here) ("/example/" ++ rest)
  = Some ({| pattern := "/example/(.*)"; target := FileFindHandler;
             init_kwargs := [("path", Py.VStr (os_path.join here "build"))] |},
          [rest]).
Proof.
  intros Hne Hrest. unfold handlers, find_rule.
  cbn [pattern].
  rewrite (root_pattern_not_under rest Hne Hrest).
  rewrite (wildcard_pattern_under rest Hrest). reflexivity.
Qed.

(** With the loader of the module, the only file looked at is the one next
    to the module file. *)
Lemma get_source_LOADER (env : PyEnv) (fs : gmap string string) (name : string) :
  get_source fs (searchpath (LOADER env)) name
  = match fs !! os_path.join (HERE env) name with
    | Some source => inr (os_path.join (HERE env) name, source)
    | None => inl (Py.TemplateNotFound name)
    end.
Proof. reflexivity. Qed.


(** ** The page handler (C1) *)




(** ** Registration *)

Lemma route_count_insert (g : HostMatcher * list Rule) (gs : list (HostMatcher * list Rule)) :
  route_count (insert_before_last g gs) = route_count gs + length (snd g).
Proof.
  assert (Hcons : forall (a : nat) l, list_sum (a :: l) = a + list_sum l)
    by reflexivity.
  unfold route_count. induction gs as [|g1 gs IH]; [cbn; lia|].
  destruct gs as [|g2 gs]; [cbn; lia|].
  change (insert_before_last g (g1 :: g2 :: gs))
    with (g1 :: insert_before_last g (g2 :: gs)).
  rewrite !(map_cons _ g1), !Hcons, IH. lia.
Qed.

Lemma insert_before_last_In {A} (x : A) (l : list A) : In x (insert_before_last x l).
Proof.
  induction l as [|y l IH]; [now left|].
  destruct l as [|z l]; [now left|].
  right. exact IH.
Qed.

(** A host rule added by [add_handlers] takes a request that no rule added
    earlier takes. *)
Lemma find_handler_insert
    (g : HostMatcher * list Rule) (gs : list (HostMatcher * list Rule))
    (req : Request) (hit : Rule * list string) :
  find_handler (removelast gs) req = None ->
  host_matches (fst g) (host_name req) = true ->
  find_rule (snd g) (path req) = Some hit ->
  find_handler (insert_before_last g gs) req = Some hit.
Proof.
  destruct g as [m rs]. cbn [fst snd]. intros Hearlier Hhost Hhit.
  induction gs as [|g1 gs IH].
  - cbn. now rewrite Hhost, Hhit.
  - destruct gs as [|g2 gs].
    + cbn. now rewrite Hhost, Hhit.
    + change (insert_before_last (m, rs) (g1 :: g2 :: gs))
        with (g1 :: insert_before_last (m, rs) (g2 :: gs)).
      change (removelast (g1 :: g2 :: gs)) with (g1 :: removelast (g2 :: gs)) in Hearlier.
      destruct g1 as [m1 rs1]. cbn [find_handler] in *.
      destruct (host_matches m1 (host_name req)).
      * destruct (find_rule rs1 (path req)); [discriminate|]. now apply IH.
      * now apply IH.
Qed.

Lemma ExampleApp_start_run (host : HostBindings) (w : World) :
  ExampleApp_start host w = start (ServerApp host) (registered w).
Proof. reflexivity. Qed.

(** ** Application startup (C2, C4) *)

(** C2: [start] registers exactly two routes, the root pattern for the page
    handler and the wildcard pattern for the static file handler, and the
    default landing URL of the application is [/example].  Launching the
    application initializes the base application and then runs [start]. *)
Theorem start_registers_two_routes (host : HostBindings) (w : World) :
  ExampleApp_start host w = start (ServerApp host) (registered w)
  /\ rules (web_app (registered w))
     = insert_before_last (HostMatches ".*$", handlers (g_HERE (globals w)))
         (rules (web_app w))
  /\ map (fun r => (pattern r, target r)) (handlers (g_HERE (globals w)))
     = [("/example/?", ExampleHander); ("/example/(.*)", FileFindHandler)]
  /\ route_count (rules (web_app (registered w))) = route_count (rules (web_app w)) + 2
  /\ default_url (ExampleApp host) = "/example"
  /\ main host w
     = match initialize (ServerApp host) w with
       | (inr _, w') => start (ServerApp host) (registered w')
       | (inl e, w') => (inl e, w')
       end.
Proof.
  repeat apply conj; try reflexivity.
  unfold registered, add_handlers, Eff.modify. cbn [snd set_rules web_app rules].
  now rewrite route_count_insert.
Qed.

(** C4: [start] first registers both handlers, the page handler at the root
    pattern and the static file handler at the wildcard pattern with the
    [build] directory, and then runs the base application's [start] on the
    world so changed; what the base [start] returns and leaves is what
    [start] returns and leaves.  Registration touches only the routing
    table, and [initialize] and [stop] are the base application's. *)
Theorem start_registers_then_defers (host : HostBindings) (w : World) :
  ExampleApp_start host w = start (ServerApp host) (registered w)
  /\ In (HostMatches ".*$",
         [ {| pattern := "/example/?"; target := ExampleHander; init_kwargs := [] |};
           {| pattern := "/example/(.*)"; target := FileFindHandler;
              init_kwargs :=
                [("path", Py.VStr (os_path.join (g_HERE (globals w)) "build"))] |} ])
        (rules (web_app (registered w)))
  /\ settings (web_app (registered w)) = settings (web_app w)
  /\ globals (registered w) = globals w
  /\ files (registered w) = files w
  /\ start (ExampleApp host) = ExampleApp_start host
  /\ initialize (ExampleApp host) = initialize (ServerApp host)
  /\ stop (ExampleApp host) = stop (ServerApp host).
Proof.
  repeat split.
  unfold registered, add_handlers, Eff.modify. cbn [snd set_rules web_app rules].
  apply insert_before_last_In.
Qed.

(** ** The static file handler (C3) *)

Lemma route_static (host : HostBindings) (here rest : string) (req : Request) (w : World) :
  path req = "/example/" ++ rest ->
  rest <> "" ->
  no_newline rest = true ->
  route host (handlers here) req w
  = match find_file (FileFind host) (os_path.join here "build") rest (files w) with
    | Some data => (Some {| status := 200; body := data |}, w)
    | None => (Some {| status := 404; body := write_error (JupyterHandler host) 404 |}, w)
    end.
Proof.
  intros Hpath Hne Hrest. unfold route.
  rewrite Hpath, (static_route here rest Hne Hrest).
  unfold dispatch, handler_get, FileFindHandler_get.
  cbn [target init_kwargs Py.kw_lookup String.eqb Ascii.eqb Bool.eqb].
  unfold Eff.bind, Eff.gets. cbn [fst].
  destruct (find_file _ _ _ _) as [data|]; reflexivity.
Qed.

(** C3, as it holds: a GET whose path is [/example/] followed by a
    non-empty remainder is answered by the static file handler, which
    resolves the remainder against the [build] directory next to the module
    file: the file's contents with status 200 when the remainder names a
    file there, status 404 when it names none. *)
Theorem static_handler_serves_build
    (host : HostBindings) (env : PyEnv) (rest : string) (req : Request) (w : World) :
  path req = "/example/" ++ rest ->
  rest <> "" ->
  no_newline rest = true ->
  route host (handlers (HERE env)) req w
  = match find_file (FileFind host)
            (os_path.join (os_path.dirname (file__ env)) "build") rest (files w) with
    | Some data => (Some {| status := 200; body := data |}, w)
    | None => (Some {| status := 404; body := write_error (JupyterHandler host) 404 |}, w)
    end.
Proof. intros Hpath Hne Hrest. exact (route_static host _ rest req w Hpath Hne Hrest). Qed.

Lemma static_handler_serves_build_witness :
  route Demo.host (handlers (HERE Demo.env)) (Demo.get_request "/example/bundle.js")
    Demo.world
  = (Some {| status := 200; body := "console.log(1)" |}, Demo.world).
Proof.
  apply (static_handler_serves_build Demo.host Demo.env "bundle.js"
           (Demo.get_request "/example/bundle.js") Demo.world).
  - reflexivity.
  - discriminate.
  - reflexivity.
Defined.

(** C3, as stated, fails at the bare prefix: [/example/] is under the
    prefix and names no file, yet the answer is the page with status 200,
    because the root pattern takes the request first. *)
Lemma static_handler_bare_prefix :
  ~ static_answers_all_under_prefix Demo.host.
Proof.
  intros H.
  specialize (H (HERE Demo.env) "" (Demo.get_request "/example/") Demo.world
                eq_refl eq_refl).
  vm_compute in H. discriminate H.
Qed.

(** ** Failures (C5) *)

Lemma route_root_run (host : HostBindings) (here : string) (req : Request) (w : World) :
  path req = "/example" \/ path req = "/example/" ->
  route host (handlers here) req w
  = match ExampleHander_get host (w, new_handler req) with
    | (outcome, (w', h')) => (Some (finish host outcome h'), w')
    end.
Proof.
  intros Hp. unfold route. rewrite (root_route here _ Hp).
  unfold dispatch, handler_get. cbn [target init_kwargs].
  destruct (ExampleHander_get host _) as [outcome [w' h']]. reflexivity.
Qed.




(** ** What the page handler leaves behind (C6) *)

Lemma append_empty (s : string) : s ++ "" = s.
Proof.
  induction s as [|c s IH]; [reflexivity|].
  change (String c (s ++ "") = String c s). now rewrite IH.
Qed.

Lemma ExampleHander_get_world (host : HostBindings) (w : World) (h : Handler) :
  fst (snd (ExampleHander_get host (w, h))) = w.
Proof.
  rewrite ExampleHander_get_run.
  repeat match goal with
         | |- context [match ?x with _ => _ end] => destruct x
         end; reflexivity.
Qed.

(** C6: the methods of the page handler leave the world as it was.  After
    [get], whether it returns or raises, the settings, the registered
    routes, the module-level [HERE] and [LOADER] and the files are
    unchanged; the handler keeps its request and its buffer is the former
    buffer with at most the page appended.  [get_template] changes nothing
    at all, and the world after a GET on the root path is the world before
    it. *)
Theorem page_handler_frame
    (host : HostBindings) (w : World) (h : Handler) (name : string) :
  fst (snd (ExampleHander_get host (w, h))) = w
  /\ settings (web_app (fst (snd (ExampleHander_get host (w, h))))) = settings (web_app w)
  /\ rules (web_app (fst (snd (ExampleHander_get host (w, h))))) = rules (web_app w)
  /\ g_HERE (globals (fst (snd (ExampleHander_get host (w, h))))) = g_HERE (globals w)
  /\ g_LOADER (globals (fst (snd (ExampleHander_get host (w, h))))) = g_LOADER (globals w)
  /\ request (snd (snd (ExampleHander_get host (w, h)))) = request h
  /\ (exists chunk,
        write_buffer (snd (snd (ExampleHander_get host (w, h))))
        = write_buffer h ++ chunk)
  /\ snd (ExampleHander_get_template name (w, h)) = (w, h)
  /\ (forall here req,
        path req = "/example" \/ path req = "/example/" ->
        snd (route host (handlers here) req w) = w).
Proof.
  rewrite !ExampleHander_get_world. repeat apply conj; try reflexivity.
  - rewrite ExampleHander_get_run.
    repeat match goal with
           | |- context [match ?x with _ => _ end] => destruct x
           end; reflexivity.
  - rewrite ExampleHander_get_run.
    repeat match goal with
           | |- context [match ?x with _ => _ end] => destruct x
           end;
      first [ now exists ""; rewrite append_empty | now eexists ].
  - rewrite ExampleHander_get_template_run.
    repeat match goal with
           | |- context [match ?x with _ => _ end] => destruct x
           end; reflexivity.
  - intros here req Hp. rewrite (route_root_run host here req w Hp).
    pose proof (ExampleHander_get_world host w (new_handler req)) as Hw.
    destruct (ExampleHander_get host _) as [outcome [w' h']]. exact Hw.
Qed.

Lemma page_handler_frame_witness :
  snd (route Demo.host (handlers (HERE Demo.env)) (Demo.get_request "/example")
         Demo.world)
  = Demo.world.
Proof.
  destruct (page_handler_frame Demo.host Demo.world
              (new_handler (Demo.get_request "/example")) "index.html")
    as (_ & _ & _ & _ & _ & _ & _ & _ & Hroute).
  apply Hroute. left; reflexivity.
Defined.

(** ** Where the files are read from (C7) *)



(** ** Precedence of the root route (C8) *)

(** C8: the root pattern matches [/example] and [/example/]; the wildcard
    pattern matches [/example/] as well, with an empty capture; as the root
    route comes first, the router of the example gives both paths to the
    page handler and not to the static file handler, the request runs
    [ExampleHander.get], and so it is in the application once [start] has
    registered the routes, for a request no host rule added earlier takes. *)
Theorem root_goes_to_page_handler (host : HostBindings) :
  PathMatches "/example/?" "/example" = Some []
  /\ PathMatches "/example/?" "/example/" = Some []
  /\ PathMatches "/example/(.*)" "/example/" = Some [""]
  /\ (forall here p,
        p = "/example" \/ p = "/example/" ->
        exists r,
          find_rule (handlers here) p = Some (r, [])
          /\ target r = ExampleHander
          /\ target r <> FileFindHandler)
  /\ (forall here req w,
        path req = "/example" \/ path req = "/example/" ->
        route host (handlers here) req w
        = match ExampleHander_get host (w, new_handler req) with
          | (outcome, (w', h')) => (Some (finish host outcome h'), w')
          end)
  /\ (forall req w,
        path req = "/example" \/ path req = "/example/" ->
        no_newline (host_name req) = true ->
        find_handler (removelast (rules (web_app w))) req = None ->
        exists r,
          find_handler (rules (web_app (registered w))) req = Some (r, [])
          /\ target r = ExampleHander).
Proof.
  repeat apply conj; try reflexivity.
  - intros here p Hp. eexists. rewrite (root_route here p Hp).
    repeat split. discriminate.
  - intros here req w Hp. exact (route_root_run host here req w Hp).
  - intros req w Hp Hhost Hearlier. eexists. split.
    + unfold registered, add_handlers, Eff.modify. cbn [snd set_rules web_app rules].
      apply find_handler_insert; [exact Hearlier | | ].
      * exact (any_host_pattern _ Hhost).
      * exact (root_route _ _ Hp).
    + reflexivity.
Qed.

Lemma root_goes_to_page_handler_witness :
  (exists r,
      find_rule (handlers (HERE Demo.env)) "/example/" = Some (r, [])
      /\ target r = ExampleHander
      /\ target r <> FileFindHandler)
  /\ (exists r,
        find_handler (rules (web_app (registered Demo.world)))
          (Demo.get_request "/example") = Some (r, [])
        /\ target r = ExampleHander).
Proof.
  destruct (root_goes_to_page_handler Demo.host) as (_ & _ & _ & Hrouter & _ & Happ).
  split.
  - apply Hrouter. right; reflexivity.
  - apply Happ; [left; reflexivity | reflexivity | reflexivity].
Defined.

(** ** The import fallback (C9) *)

Lemma import_pair_first (m1 m2 : string) app hs :
  exists rest, fst (import_pair m1 m2 app hs) = m1 :: rest.
Proof. destruct app as [e|a]; [|destruct hs as [e|[j f]]]; eexists; reflexivity. Qed.

Lemma import_notebook_attempts (env : PyEnv) :
  ~ In "jupyter_server.serverapp" (fst (import_notebook env)).
Proof.
  unfold import_notebook, import_pair.
  destruct (notebook_notebookapp env) as [e|a];
    [|destruct (notebook_base_handlers env) as [e|[j f]]];
    cbn; intros H; repeat destruct H as [H|H]; try discriminate H; exact H.
Qed.

Lemma import_host_bound (env : PyEnv) (b : HostBindings) :
  snd (import_notebook env) = inr b ->
  import_host env = (fst (import_notebook env), inr b).
Proof.
  unfold import_host. destruct (import_notebook env) as [attempted outcome].
  cbn [fst snd]. now intros ->.
Qed.

Lemma import_host_caught (env : PyEnv) (m : string) :
  snd (import_notebook env) = inl (Py.ImportError m) ->
  import_host env
  = ((fst (import_notebook env) ++ fst (import_jupyter_server env))%list,
     snd (import_jupyter_server env)).
Proof.
  unfold import_host. destruct (import_notebook env) as [attempted outcome].
  cbn [fst snd]. intros ->. now destruct (import_jupyter_server env).
Qed.

Lemma import_host_uncaught (env : PyEnv) (e : Py.exn) :
  snd (import_notebook env) = inl e ->
  (forall m, e <> Py.ImportError m) ->
  import_host env = (fst (import_notebook env), inl e).
Proof.
  unfold import_host. destruct (import_notebook env) as [attempted outcome].
  cbn [fst snd]. intros -> Hother.
  destruct e; try reflexivity. now destruct (Hother module_name).
Qed.

Lemma exn_is_import_error (e : Py.exn) :
  (exists m, e = Py.ImportError m) \/ (forall m, e <> Py.ImportError m).
Proof. destruct e; try (right; discriminate). left. now eexists. Qed.



(** ** Determinism of the page (C10) *)




(** * Further properties of the module *)

(** ** Which paths the two routes take *)

Lemma match_literal_inv (cs : list ascii) (r : re.regex) (s : string)
    (groups v : list string) :
  re.match_items (literal cs ++ r)%list s groups = Some v ->
  exists s', s = string_of_list_ascii cs ++ s' /\ re.match_items r s' groups = Some v.
Proof.
  revert s. induction cs as [|c cs IH]; intros s H.
  - exists s. split; [reflexivity | exact H].
  - change (re.match_items (literal (c :: cs) ++ r)%list s groups)
      with (re.match_atom (re.One (re.Lit c)) s
              (fun s' => re.match_items (literal cs ++ r)%list s' groups)) in H.
    destruct s as [|x s]; [discriminate H|].
    cbn [re.match_atom re.cls_ok] in H.
    destruct (Ascii.eqb_spec c x) as [<-|]; [|discriminate H].
    destruct (IH s H) as (s' & -> & Hs').
    exists s'. split; [reflexivity | exact Hs'].
Qed.

Lemma star_inv {A} (k : re.cls) (s : string) (cont : string -> option A) (v : A) :
  re.star k s cont = Some v -> exists s', cont s' = Some v.
Proof.
  induction s as [|c s IH]; cbn [re.star]; intros H; [now exists ""|].
  destruct (re.cls_ok k c); [|eexists; exact H].
  destruct (re.star k s cont) as [r|] eqn:Hstar; [|eexists; exact H].
  injection H as <-. now apply IH.
Qed.

Lemma end_inv (s : string) (groups v : list string) :
  re.match_items [re.Plain re.End] s groups = Some v -> v = rev groups.
Proof.
  cbn [re.match_items re.match_atom].
  destruct s as [|c [|c' s]]; [| destruct (Ascii.eqb c re.newline) |];
    intros H; first [discriminate H | now injection H as <-].
Qed.

(** The root pattern never captures. *)
Lemma root_pattern_inv (p : string) (args : list string) :
  PathMatches "/example/?" p = Some args ->
  args = [] /\ exists s', p = "/example" ++ s'.
Proof.
  unfold PathMatches.
  change (re.compile (anchored "/example/?"))
    with (Some (literal ["/"; "e"; "x"; "a"; "m"; "p"; "l"; "e"]%char
                ++ [re.Plain (re.Opt (re.Lit "/"%char)); re.Plain re.End])%list).
  unfold re.match_. intros H.
  apply match_literal_inv in H as (s' & -> & H).
  split; [|now exists s'].
  change (re.match_items [re.Plain (re.Opt (re.Lit "/"%char)); re.Plain re.End] s' [])
    with (re.match_atom (re.Opt (re.Lit "/"%char)) s'
            (fun s'' => re.match_items [re.Plain re.End] s'' [])) in H.
  cbn [re.match_atom] in H.
  destruct s' as [|c s']; [exact (end_inv _ _ _ H)|].
  destruct (re.cls_ok (re.Lit "/"%char) c); [|exact (end_inv _ _ _ H)].
  destruct (re.match_items [re.Plain re.End] s' []) as [r|] eqn:Hend.
  - injection H as <-. exact (end_inv _ _ _ Hend).
  - exact (end_inv _ _ _ H).
Qed.

(** The wildcard pattern captures exactly one group. *)
Lemma wildcard_pattern_inv (p : string) (args : list string) :
  PathMatches "/example/(.*)" p = Some args ->
  (exists relative, args = [relative]) /\ exists rest, p = "/example/" ++ rest.
Proof.
  unfold PathMatches.
  change (re.compile (anchored "/example/(.*)"))
    with (Some (literal ["/"; "e"; "x"; "a"; "m"; "p"; "l"; "e"; "/"]%char
                ++ [re.Group [re.Star re.Dot]; re.Plain re.End])%list).
  unfold re.match_. intros H.
  apply match_literal_inv in H as (rest & -> & H).
  split; [|now exists rest].
  change (re.match_items [re.Group [re.Star re.Dot]; re.Plain re.End] rest [])
    with (re.star re.Dot rest
            (fun s' => re.match_items [re.Plain re.End] s' [re.taken rest s'])) in H.
  apply star_inv in H as (s' & H). apply end_inv in H.
  exists (re.taken rest s'). exact H.
Qed.



Lemma handlers_rules (here : string) : handlers here = [root_rule; static_rule here].
Proof. reflexivity. Qed.

(** A hit of the example's router is the root route without arguments or
    the static route with one argument, and the path starts with
    [/example]. *)
Lemma find_rule_inv (here p : string) (r : Rule) (args : list string) :
  find_rule (handlers here) p = Some (r, args) ->
  (exists s', p = "/example" ++ s')
  /\ ((r = root_rule /\ args = [])
      \/ (r = static_rule here /\ exists relative, args = [relative])).
Proof.
  rewrite handlers_rules. cbn [find_rule]. cbn [pattern root_rule static_rule].
  destruct (PathMatches "/example/?" p) as [a|] eqn:Hroot.
  - intros H. injection H as <- <-.
    destruct (root_pattern_inv p a Hroot) as (-> & Hprefix).
    split; [exact Hprefix | now left].
  - destruct (PathMatches "/example/(.*)" p) as [a|] eqn:Hwild; [|discriminate].
    intros H. injection H as <- <-.
    destruct (wildcard_pattern_inv p a Hwild) as (Hone & rest & ->).
    split; [now exists (String "/"%char rest) | now right].
Qed.




(** X2: whatever the path, a request the router of the example takes starts
    with [/example] and reaches its handler with the arguments the handler
    expects: [ExampleHander.get] is called without arguments, the static
    file handler with the [build] directory and exactly one relative path.
    No route of the example ends in an arity error. *)
Theorem example_routes_call_handlers_well
    (host : HostBindings) (here p : string) (r : Rule) (args : list string) :
  find_rule (handlers here) p = Some (r, args) ->
  (exists s', p = "/example" ++ s')
  /\ ((target r = ExampleHander
       /\ handler_get host (target r) (init_kwargs r) args = ExampleHander_get host)
      \/ (target r = FileFindHandler
          /\ exists relative,
               args = [relative]
               /\ handler_get host (target r) (init_kwargs r) args
                  = FileFindHandler_get host
                      [("path", Py.VStr (os_path.join here "build"))] [relative])).
Proof.
  intros H. destruct (find_rule_inv here p r args H)
    as (Hprefix & [(-> & ->) | (-> & relative & ->)]).
  - split; [exact Hprefix | left; now split].
  - split; [exact Hprefix | right]. split; [reflexivity|].
    exists relative. now split.
Qed.

Lemma example_routes_call_handlers_well_witness :
  handler_get Demo.host FileFindHandler
    [("path", Py.VStr "/srv/example/build")] ["a/b.css"]
  = FileFindHandler_get Demo.host [("path", Py.VStr "/srv/example/build")] ["a/b.css"].
Proof.
  destruct (example_routes_call_handlers_well Demo.host "/srv/example"
              "/example/a/b.css" (static_rule "/srv/example") ["a/b.css"] eq_refl)
    as (_ & [(Habsurd & _) | (_ & relative & Hargs & Hget)]).
  - discriminate Habsurd.
  - injection Hargs as <-. exact Hget.
Defined.

(** ** What registration leaves alone *)

Lemma find_handler_insert_miss
    (g : HostMatcher * list Rule) (gs : list (HostMatcher * list Rule)) (req : Request) :
  find_rule (snd g) (path req) = None ->
  find_handler (insert_before_last g gs) req = find_handler gs req.
Proof.
  destruct g as [m rs]. cbn [snd]. intros Hmiss.
  induction gs as [|g1 gs IH].
  - cbn. rewrite Hmiss. now destruct (host_matches m (host_name req)).
  - destruct gs as [|g2 gs].
    + cbn [insert_before_last find_handler]. rewrite Hmiss.
      now destruct (host_matches m (host_name req)).
    + change (insert_before_last (m, rs) (g1 :: g2 :: gs))
        with (g1 :: insert_before_last (m, rs) (g2 :: gs)).
      destruct g1 as [m1 rs1]. cbn [find_handler]. now rewrite IH.
Qed.

Lemma find_handler_insert_earlier
    (g : HostMatcher * list Rule) (gs : list (HostMatcher * list Rule))
    (req : Request) (hit : Rule * list string) :
  find_handler (removelast gs) req = Some hit ->
  find_handler (insert_before_last g gs) req = Some hit.
Proof.
  induction gs as [|g1 gs IH]; [discriminate|].
  destruct gs as [|g2 gs]; [discriminate|].
  change (insert_before_last g (g1 :: g2 :: gs))
    with (g1 :: insert_before_last g (g2 :: gs)).
  change (removelast (g1 :: g2 :: gs)) with (g1 :: removelast (g2 :: gs)).
  destruct g1 as [m1 rs1]. cbn [find_handler].
  destruct (host_matches m1 (host_name req)); [|exact IH].
  destruct (find_rule rs1 (path req)); [trivial | exact IH].
Qed.

Lemma registered_rules (w : World) :
  registered w
  = set_rules w (insert_before_last (HostMatches ".*$", handlers (g_HERE (globals w)))
                   (rules (web_app w))).
Proof. reflexivity. Qed.

(** X3: the registration made by [start] does not change which handler any
    other request gets.  A request whose path does not start with
    [/example] is dispatched by the application exactly as before, and a
    request that a host rule added before [start] takes is still taken by
    that rule, under [/example] too. *)
Theorem start_keeps_other_routes (w : World) :
  (forall req,
      ~ (exists s', path req = "/example" ++ s') ->
      find_handler (rules (web_app (registered w))) req
      = find_handler (rules (web_app w)) req)
  /\ (forall req hit,
        find_handler (removelast (rules (web_app w))) req = Some hit ->
        find_handler (rules (web_app (registered w))) req = Some hit).
Proof.
  rewrite registered_rules. cbn [set_rules web_app rules]. split.
  - intros req Hout. apply find_handler_insert_miss. cbn [snd].
    destruct (find_rule (handlers (g_HERE (globals w))) (path req)) as [[r args]|] eqn:H;
      [|reflexivity].
    destruct Hout. exact (proj1 (find_rule_inv _ _ r args H)).
  - intros req hit. apply find_handler_insert_earlier.
Qed.

Lemma start_keeps_other_routes_witness :
  find_handler (rules (web_app (registered demo_world_extended))) (Demo.get_request "/tree")
  = Some ({| pattern := "/tree"; target := HostHandler "tree"; init_kwargs := [] |}, [])
  /\ find_handler (rules (web_app (registered demo_world_extended)))
       (Demo.get_request "/example/api")
     = Some ({| pattern := "/example/api"; target := HostHandler "api";
                init_kwargs := [] |}, []).
Proof.
  destruct (start_keeps_other_routes demo_world_extended) as [Hout Hearlier].
  split.
  - rewrite (Hout (Demo.get_request "/tree")); [reflexivity|].
    intros [s' Hs']. discriminate Hs'.
  - apply Hearlier. reflexivity.
Defined.

(** ** Serving once the routes are registered *)

(** The handlers of the example read the settings, the globals and the
    files, never the routing table. *)
Lemma dispatch_set_rules (host : HostBindings) (here : string)
    (r : Rule) (args : list string) (p : string)
    (req : Request) (w : World) (rs : list (HostMatcher * list Rule)) :
  find_rule (handlers here) p = Some (r, args) ->
  dispatch host (r, args) req (set_rules w rs)
  = (fst (dispatch host (r, args) req w), set_rules w rs).
Proof.
  intros H. destruct (find_rule_inv here p r args H)
    as (_ & [(-> & ->) | (-> & relative & ->)]).
  - unfold dispatch, handler_get. cbn [target init_kwargs root_rule].
    rewrite !ExampleHander_get_run.
    cbn [set_rules settings web_app globals files].
    destruct (settings (web_app w) !! "token") as [token|]; [|reflexivity].
    destruct (settings (web_app w) !! "jinja2_env") as [environment|]; [|reflexivity].
    destruct (get_source _ _ _) as [e|found]; [reflexivity|].
    destruct (render _ _ _) as [e|page]; reflexivity.
  - unfold dispatch, handler_get, FileFindHandler_get.
    cbn [target init_kwargs static_rule Py.kw_lookup String.eqb Ascii.eqb Bool.eqb].
    unfold Eff.bind, Eff.gets. cbn [fst set_rules files].
    destruct (find_file _ _ _ _); reflexivity.
Qed.

(** X4: once [start] has registered the routes, the application answers a
    request the router of the example takes, and no host rule added earlier
    takes, with the response that router gives in the world before
    registration, and the world stays the registered one: serving neither
    depends on the routing table nor changes it. *)
Theorem serve_after_registration
    (host : HostBindings) (w : World) (req : Request) (hit : Rule * list string) :
  no_newline (host_name req) = true ->
  find_handler (removelast (rules (web_app w))) req = None ->
  find_rule (handlers (g_HERE (globals w))) (path req) = Some hit ->
  serve host req (registered w)
  = (fst (route host (handlers (g_HERE (globals w))) req w), registered w).
Proof.
  intros Hhost Hearlier Hhit. unfold serve, route. rewrite Hhit.
  rewrite registered_rules at 1. cbn [set_rules web_app rules].
  rewrite (find_handler_insert (HostMatches ".*$", handlers (g_HERE (globals w)))
             _ req hit Hearlier (any_host_pattern _ Hhost) Hhit).
  destruct hit as [r args].
  rewrite registered_rules, (dispatch_set_rules host _ r args _ req w _ Hhit).
  now destruct (dispatch host (r, args) req w).
Qed.

Lemma serve_after_registration_witness :
  serve Demo.host (Demo.get_request "/example/bundle.js") (registered Demo.world)
  = (Some {| status := 200; body := "console.log(1)" |}, registered Demo.world).
Proof.
  apply (serve_after_registration Demo.host Demo.world
           (Demo.get_request "/example/bundle.js")
           (static_rule "/srv/example", ["bundle.js"])); reflexivity.
Defined.

(** ** Which package the names come from *)

(** X5: when the import block succeeds, the three names come from one
    package: either both imports from notebook returned and bound them, or
    an import from notebook raised [ImportError] and both imports from
    jupyter_server returned and bound them.  A notebook application class
    is never paired with jupyter_server handlers, also when only the second
    notebook import fails. *)
Theorem import_binds_one_package (env : PyEnv) (b : HostBindings) :
  snd (import_host env) = inr b ->
  (notebook_notebookapp env = inr (ServerApp b)
   /\ notebook_base_handlers env = inr (JupyterHandler b, FileFind b)
   /\ ~ fell_back env)
  \/ ((exists m, snd (import_notebook env) = inl (Py.ImportError m))
      /\ jupyter_server_serverapp env = inr (ServerApp b)
      /\ jupyter_server_base_handlers env = inr (JupyterHandler b, FileFind b)
      /\ fell_back env).
Proof.
  intros H.
  destruct (snd (import_notebook env)) as [e|b'] eqn:Hnb.
  - destruct (exn_is_import_error e) as [[m ->] | Hother].
    + right. rewrite (import_host_caught env m Hnb) in H. cbn [snd] in H.
      split; [now exists m|].
      assert (Hfell : fell_back env).
      { unfold fell_back. rewrite (import_host_caught env m Hnb). cbn [fst].
        apply in_or_app. right.
        destruct (import_pair_first "jupyter_server.serverapp"
                    "jupyter_server.base.handlers"
                    (jupyter_server_serverapp env) (jupyter_server_base_handlers env))
          as [rest Hrest].
        unfold import_jupyter_server. rewrite Hrest. now left. }
      unfold import_jupyter_server, import_pair in H.
      destruct (jupyter_server_serverapp env) as [e1|a]; [discriminate H|].
      destruct (jupyter_server_base_handlers env) as [e2|[j f]]; [discriminate H|].
      cbn [snd] in H. injection H as <-. now repeat split.
    + rewrite (import_host_uncaught env e Hnb Hother) in H. discriminate H.
  - left. rewrite (import_host_bound env b' Hnb) in H. cbn [snd] in H.
    injection H as ->.
    assert (Hnot : ~ fell_back env).
    { unfold fell_back. rewrite (import_host_bound env b Hnb). cbn [fst].
      apply import_notebook_attempts. }
    unfold import_notebook, import_pair in Hnb.
    destruct (notebook_notebookapp env) as [e1|a]; [discriminate Hnb|].
    destruct (notebook_base_handlers env) as [e2|[j f]]; [discriminate Hnb|].
    cbn [snd] in Hnb. injection Hnb as <-. now repeat split.
Qed.

Lemma import_binds_one_package_witness :
  jupyter_server_serverapp Demo.env_server = inr (ServerApp Demo.host)
  /\ jupyter_server_base_handlers Demo.env_server
     = inr (JupyterHandler Demo.host, FileFind Demo.host).
Proof.
  destruct (import_binds_one_package Demo.env_server Demo.host eq_refl)
    as [(Habsurd & _) | (_ & Happ & Hhandlers & _)].
  - discriminate Habsurd.
  - exact (conj Happ Hhandlers).
Defined.

(** ** The constants for the shapes of the module file path *)

Lemma head_of_no_sep (s : string) : has_sep s = false -> os_path.head_of s = "".
Proof.
  induction s as [|c s IH]; [reflexivity|].
  cbn [has_sep os_path.head_of]. intros H. apply orb_false_elim in H as [Hc Hs].
  now rewrite Hc, (IH Hs).
Qed.

Lemma head_of_directory (dir base : string) :
  has_sep base = false ->
  os_path.head_of (dir ++ "/" ++ base) = dir ++ "/".
Proof.
  intros Hbase. induction dir as [|c dir IH].
  - change (os_path.head_of ("" ++ "/" ++ base)) with (String "/"%char (os_path.head_of base)).
    now rewrite (head_of_no_sep base Hbase).
  - change (os_path.head_of (String c dir ++ "/" ++ base))
      with (let h := os_path.head_of (dir ++ "/" ++ base) in
            if os_path.is_sep c then String c h
            else match h with
                 | EmptyString => EmptyString
                 | _ => String c h
                 end).
    rewrite IH. cbv zeta.
    destruct (os_path.is_sep c); [reflexivity|].
    destruct dir; reflexivity.
Qed.

Lemma rstrip_directory (dir : string) :
  dir <> "" ->
  os_path.endswith_sep dir = false ->
  os_path.all_sep (dir ++ "/") = false /\ os_path.rstrip_sep (dir ++ "/") = dir.
Proof.
  induction dir as [|c dir IH]; [congruence|]. intros _ Hend.
  destruct dir as [|c' dir].
  - change (os_path.is_sep c = false) in Hend.
    change (String c "" ++ "/") with (String c "/").
    cbn [os_path.all_sep os_path.rstrip_sep]. rewrite Hend. split; reflexivity.
  - assert (Hend' : os_path.endswith_sep (String c' dir) = false) by exact Hend.
    destruct (IH ltac:(discriminate) Hend') as [Hall Hstrip].
    change (String c (String c' dir) ++ "/") with (String c (String c' dir ++ "/")).
    cbn [os_path.all_sep os_path.rstrip_sep].
    rewrite Hall, Hstrip. split; [apply andb_false_r | reflexivity].
Qed.

Lemma dirname_directory (dir base : string) :
  dir <> "" ->
  os_path.endswith_sep dir = false ->
  has_sep base = false ->
  os_path.dirname (dir ++ "/" ++ base) = dir.
Proof.
  intros Hdir Hend Hbase. unfold os_path.dirname.
  rewrite (head_of_directory dir base Hbase).
  destruct (rstrip_directory dir Hdir Hend) as [Hall Hstrip].
  rewrite Hall, Hstrip.
  destruct dir; [congruence | reflexivity].
Qed.

Lemma join_directory (dir name : string) :
  dir <> "" ->
  os_path.endswith_sep dir = false ->
  os_path.startswith_sep name = false ->
  os_path.join dir name = dir ++ "/" ++ name.
Proof.
  intros Hdir Hend Hname. unfold os_path.join. rewrite Hname, Hend.
  destruct dir; [congruence | reflexivity].
Qed.

(** X6: for a module file [dir/base], with [dir] not empty and not ending in
    a slash and [base] free of slashes, [HERE] is [dir]: the loader searches
    [dir] only, the template read is [dir/index.html] and the static route
    serves from [dir/build]. *)
Theorem module_file_in_directory (env : PyEnv) (dir base : string) :
  file__ env = dir ++ "/" ++ base ->
  dir <> "" ->
  os_path.endswith_sep dir = false ->
  has_sep base = false ->
  HERE env = dir
  /\ searchpath (LOADER env) = [dir]
  /\ os_path.join (HERE env) "index.html" = dir ++ "/index.html"
  /\ map init_kwargs (handlers (HERE env))
     = [ []; [("path", Py.VStr (dir ++ "/build"))] ].
Proof.
  intros Hfile Hdir Hend Hbase.
  assert (Hhere : HERE env = dir).
  { unfold HERE. rewrite Hfile. exact (dirname_directory dir base Hdir Hend Hbase). }
  unfold LOADER, handlers. cbn [searchpath map init_kwargs]. rewrite Hhere.
  rewrite (join_directory dir "index.html" Hdir Hend eq_refl),
    (join_directory dir "build" Hdir Hend eq_refl).
  now repeat split.
Qed.

Lemma module_file_in_directory_witness :
  HERE Demo.env = "/srv/example"
  /\ searchpath (LOADER Demo.env) = ["/srv/example"]
  /\ os_path.join (HERE Demo.env) "index.html" = "/srv/example/index.html"
  /\ map init_kwargs (handlers (HERE Demo.env))
     = [ []; [("path", Py.VStr "/srv/example/build")] ].
Proof.
  apply (module_file_in_directory Demo.env "/srv/example" "main.py");
    [reflexivity | discriminate | reflexivity | reflexivity].
Defined.

(** X7: for a module file named without any slash, as when the script is
    started by its bare name, [HERE] is the empty string: the loader's
    search path is empty text, the template is looked up as [index.html]
    and the static route serves from [build], both relative paths. *)
Theorem module_file_bare (env : PyEnv) (w : World) (h : Handler) (environment : Py.value) :
  has_sep (file__ env) = false ->
  g_LOADER (globals w) = LOADER env ->
  settings (web_app w) !! "jinja2_env" = Some environment ->
  HERE env = ""
  /\ searchpath (LOADER env) = [""]
  /\ map init_kwargs (handlers (HERE env)) = [ []; [("path", Py.VStr "build")] ]
  /\ ExampleHander_get_template "index.html" (w, h)
     = match files w !! "index.html" with
       | Some source =>
           (inr (loaded "index.html" ("index.html", source) environment), (w, h))
       | None => (inl (Py.TemplateNotFound "index.html"), (w, h))
       end.
Proof.
  intros Hfile Hloader Henv.
  assert (Hhere : HERE env = "").
  { unfold HERE, os_path.dirname. now rewrite (head_of_no_sep _ Hfile). }
  unfold LOADER, handlers. cbn [searchpath map init_kwargs]. rewrite Hhere.
  repeat split.
  rewrite ExampleHander_get_template_run, Henv, Hloader, get_source_LOADER, Hhere.
  change (os_path.join "" "index.html") with "index.html".
  destruct (files w !! "index.html"); reflexivity.
Qed.

Lemma module_file_bare_witness :
  HERE demo_env_bare = ""
  /\ map init_kwargs (handlers (HERE demo_env_bare)) = [ []; [("path", Py.VStr "build")] ]
  /\ fst (ExampleHander_get_template "index.html"
              (demo_world_bare, new_handler (Demo.get_request "/example")))
     = inr (loaded "index.html" ("index.html", Demo.index_html) (Py.VObj 0)).
Proof.
  destruct (module_file_bare demo_env_bare demo_world_bare
              (new_handler (Demo.get_request "/example")) (Py.VObj 0))
    as (Hhere & _ & Hstatic & Htemplate); [reflexivity | reflexivity | reflexivity |].
  apply conj; [exact Hhere|]. apply conj; [exact Hstatic|].
  rewrite Htemplate. reflexivity.
Defined.
